(** * Verification of src/agent.py (hotel booking voice agent)

    Shallow embedding of the booking tool [Assistant.book_room], of the
    business rules stated in the agent's instructions, and of the session
    handler [my_agent].  External libraries (json, google-auth, gspread,
    livekit) are not part of this repository: their outcomes are given by
    an explicit record of service functions, and their calls are recorded
    in a trace so that "no network call" can be stated. *)

From Stdlib Require Import ZArith.
From stdpp Require Import base gmap strings list.

Open Scope string_scope.

(** ** Python exceptions that can reach [book_room]'s handlers.
    All of them are subclasses of [Exception].  Each carries the text
    [str(e)] of the exception (for [KeyError], its key). *)
Inductive exn :=
| JSONDecodeError (msg : string)      (* json.JSONDecodeError *)
| ValueError (msg : string)           (* e.g. google-auth: missing key fields *)
| TypeError (msg : string)
| KeyError (key : string)
| APIError (code : Z) (text : string) (* gspread.exceptions.APIError, text = str(e) *)
| SpreadsheetNotFound (text : string) (* gspread.exceptions.SpreadsheetNotFound, text = str(e) *)
| OtherException (msg : string).

(** [except json.JSONDecodeError] *)
Definition is_json_decode_error (e : exn) : bool :=
  match e with JSONDecodeError _ => true | _ => false end.

(** [str(e)] as used in the f-string of the generic handler. *)
Definition exn_str (e : exn) : string :=
  match e with
  | JSONDecodeError m | ValueError m | TypeError m | OtherException m => m
  | KeyError k => "'" +:+ k +:+ "'"
  | APIError _ t | SpreadsheetNotFound t => t
  end.

(** ** A state-and-exception monad: [M S A] threads a state [S] and either
    returns a value or raises a Python exception. *)
Inductive Res (A : Type) := Ok (a : A) | Raise (e : exn).
Arguments Ok {_} _.
Arguments Raise {_} _.

Definition M (S A : Type) : Type := S → Res A * S.

Global Instance M_ret {S} : MRet (M S) := λ A a s, (Ok a, s).
Global Instance M_bind {S} : MBind (M S) := λ A B f m s,
  match m s with
  | (Ok a, s') => f a s'
  | (Raise e, s') => (Raise e, s')
  end.

Definition raise {S A} (e : exn) : M S A := λ s, (Raise e, s).

Definition lift {S A} (r : Res A) : M S A := λ s, (r, s).

Definition get {S} : M S S := λ s, (Ok s, s).
Definition modify {S} (f : S → S) : M S unit := λ s, (Ok tt, f s).

(** [try: body except ...: handler]: the handler sees the exception raised
    by [body] in the state [body] left behind. *)
Definition try_except {S A} (body : M S A) (handler : exn → M S A) : M S A :=
  λ s, match body s with
       | (Ok a, s') => (Ok a, s')
       | (Raise e, s') => handler e s'
       end.

(** ** Data handled by [book_room] *)

(** JSON values produced by [json.loads]. *)
#[warnings="-register-all"]
Inductive Json :=
| JNull | JBool (b : bool) | JNum (z : Z) | JStr (s : string)
| JArr (xs : list Json) | JObj (kvs : list (string * Json)).

(** Service-account credentials: the key material and the scopes. *)
Record Creds := { creds_info : Json; creds_scopes : list string }.

(** A gspread client built by [gspread.authorize]. *)
Record Client := { client_creds : Creds }.

(** A cell of an appended row: the four strings and the integer bed count. *)
Inductive Cell := CStr (s : string) | CInt (z : Z).
Abbreviation Row := (list Cell).

(** Calls into the spreadsheet service, in the order they are made. *)
Inductive NetCall :=
| CallAuthorize
| CallOpen (title : string)
| CallAppendRow (title : string) (row : Row).

Inductive Level := INFO | ERROR.

(** The world [book_room] runs in: the process environment, the first
    worksheet of every spreadsheet reachable by title, the calls made to the
    service and the log. *)
Record World := {
  w_env : gmap string string;
  w_sheets : gmap string (list Row);
  w_calls : list NetCall;
  w_log : list (Level * string)
}.

(** Outcomes of the external libraries, as deterministic functions of
    their arguments.  A [Some e] failure means the call raises [e].  An
    append call that raises may still have stored the row (the reply was
    lost, or the service answered OK with a body that is not JSON):
    [append_committed] tells whether it did.  [not_found_text] is [str(e)]
    of the SpreadsheetNotFound that [client.open] raises for an unknown
    title. *)
Record Services := {
  json_loads : string → Res Json;
  from_service_account_info : Json → list string → Res Creds;
  authorize_fail : Creds → option exn;
  open_fail : Client → string → option exn;
  append_fail : Client → string → Row → option exn;
  append_committed : Client → string → Row → bool;
  not_found_text : string
}.

Definition log (lvl : Level) (msg : string) : M World unit :=
  modify (λ w, {| w_env := w_env w; w_sheets := w_sheets w;
                  w_calls := w_calls w; w_log := (w_log w ++ [(lvl, msg)])%list |}).

Definition record_call (c : NetCall) : M World unit :=
  modify (λ w, {| w_env := w_env w; w_sheets := w_sheets w;
                  w_calls := (w_calls w ++ [c])%list; w_log := w_log w |}).

(** [os.getenv(key)] *)
Definition os_getenv (key : string) : M World (option string) :=
  w ← get; mret (w_env w !! key).

(** Python truthiness of [os.getenv]'s result: [None] and [""] are falsy. *)
Definition py_truthy (o : option string) : bool :=
  match o with None => false | Some s => negb (String.eqb s "") end.

(** [gspread.authorize(creds)] *)
Definition gspread_authorize (svc : Services) (c : Creds) : M World Client :=
  record_call CallAuthorize;;
  match authorize_fail svc c with
  | Some e => raise e
  | None => mret {| client_creds := c |}
  end.

(** A handle on the first worksheet ([.sheet1]) of a spreadsheet. *)
Record Worksheet := { ws_title : string }.

(** [client.open(title).sheet1]: fails on access errors, and with
    [SpreadsheetNotFound] when no spreadsheet has that title. *)
Definition client_open_sheet1 (svc : Services) (cl : Client) (title : string)
  : M World Worksheet :=
  record_call (CallOpen title);;
  match open_fail svc cl title with
  | Some e => raise e
  | None =>
      w ← get;
      match w_sheets w !! title with
      | None => raise (SpreadsheetNotFound (not_found_text svc))
      | Some _ => mret {| ws_title := title |}
      end
  end.

(** The service stores [row] after the last row of a worksheet. *)
Definition store_row (title : string) (row : Row) : M World unit :=
  modify (λ w, {| w_env := w_env w;
                  w_sheets := alter (λ rows, (rows ++ [row])%list) title (w_sheets w);
                  w_calls := w_calls w; w_log := w_log w |}).

(** [sheet.append_row(row)]: adds [row] after the last row; when the call
    raises, the row may or may not have been stored. *)
Definition append_row (svc : Services) (cl : Client) (ws : Worksheet) (row : Row)
  : M World unit :=
  record_call (CallAppendRow (ws_title ws) row);;
  match append_fail svc cl (ws_title ws) row with
  | Some e =>
      (if append_committed svc cl (ws_title ws) row then store_row (ws_title ws) row
       else mret tt);;
      raise e
  | None => store_row (ws_title ws) row
  end.

(** ** Constants of agent.py *)
Definition SHEET_NAME : string := "Hotel booking".
Definition CREDS_VAR : string := "GOOGLE_CREDENTIALS_JSON".
Definition scopes : list string :=
  ["https://www.googleapis.com/auth/spreadsheets";
   "https://www.googleapis.com/auth/drive"].

Definition MSG_MISSING : string := "Error: System configuration error (Missing Credentials).".
Definition MSG_INVALID : string := "Error: System configuration error (Invalid Credentials).".
Definition MSG_SUCCESS : string := "Booking successfully saved to the system.".
Definition MSG_FAILURE : string := "An error occurred while saving the booking.".

(** ** [Assistant.book_room] (agent.py, lines 79-128) *)

(** The [try] block of [book_room] (agent.py, lines 95-121). *)
Definition book_room_try (svc : Services) (guest_name phone check_in check_out : string)
  (beds : Z) : M World string :=
    json_creds_string ← os_getenv CREDS_VAR;
     if negb (py_truthy json_creds_string) then
       log ERROR "Missing GOOGLE_CREDENTIALS_JSON environment variable.";;
       mret MSG_MISSING
     else
       creds_dict ← (match json_creds_string with
                     | Some s => lift (json_loads svc s)
                     | None => raise (TypeError "the JSON object must be str, not NoneType")
                     end);
       creds ← lift (from_service_account_info svc creds_dict scopes);
       client ← gspread_authorize svc creds;
       sheet ← client_open_sheet1 svc client SHEET_NAME;
       append_row svc client sheet
         [CStr guest_name; CStr phone; CStr check_in; CStr check_out; CInt beds];;
       log INFO "Booking saved successfully.";;
       mret MSG_SUCCESS.

(** The two [except] clauses of [book_room] (agent.py, lines 123-128). *)
Definition book_room_except (e : exn) : M World string :=
  if is_json_decode_error e then
    log ERROR "GOOGLE_CREDENTIALS_JSON contains invalid JSON.";;
    mret MSG_INVALID
  else
    log ERROR ("Failed to save booking: " +:+ exn_str e);;
    mret MSG_FAILURE.

Definition book_room (svc : Services) (guest_name phone check_in check_out : string)
  (beds : Z) : M World string :=
  log INFO ("Attempting to book for " +:+ guest_name);;
  try_except (book_room_try svc guest_name phone check_in check_out beds) book_room_except.

(** ** Session bootstrap [my_agent] (agent.py, lines 141-183) *)

(** [rtc.ParticipantKind] *)
Inductive ParticipantKind :=
| PARTICIPANT_KIND_STANDARD
| PARTICIPANT_KIND_INGRESS
| PARTICIPANT_KIND_EGRESS
| PARTICIPANT_KIND_SIP
| PARTICIPANT_KIND_AGENT
| PARTICIPANT_KIND_CONNECTOR.

Global Instance ParticipantKind_eq_dec : EqDecision ParticipantKind.
Proof. solve_decision. Defined.

Record Participant := {
  participant_identity : string;
  participant_kind : ParticipantKind
}.

(** The parameters handed to the noise-cancellation selector. *)
Record NCParams := { nc_participant : Participant }.

(** [noise_cancellation.BVC()] and [noise_cancellation.BVCTelephony()] *)
Inductive NoiseCancellation := BVC | BVCTelephony.

(** The lambda passed as [noise_cancellation] (agent.py, lines 169-171). *)
Definition nc_selector (params : NCParams) : NoiseCancellation :=
  if decide (participant_kind (nc_participant params) = PARTICIPANT_KIND_SIP)
  then BVCTelephony else BVC.

(** The voice-activity detector loaded by [prewarm]. *)
Inductive VAD := SileroVAD.

Record JobContext := {
  ctx_room_name : string;
  ctx_proc_userdata : gmap string VAD
}.

(** The fixed configuration of [AgentSession(...)]. *)
Record SessionConfig := {
  stt_model : string; stt_language : string;
  llm_model : string;
  tts_target_language_code : string; tts_speaker : string;
  cfg_vad : VAD;
  preemptive_generation : bool
}.

(** Operations the handler performs on the runtime, in order. *)
Inductive SessionOp :=
| OpSetLogContext (room : string)
| OpNewSession (cfg : SessionConfig)
| OpStart (room : string) (selector : NCParams → NoiseCancellation)
| OpSay (text : string)
| OpConnect.

(** Outcomes of the awaited runtime calls: [Some e] means the await raises. *)
Record SessionRuntime := {
  stt_fail : option exn;           (* inference.STT(...) *)
  llm_fail : option exn;           (* inference.LLM(...) *)
  tts_fail : option exn;           (* sarvam.TTS(...) *)
  session_fail : option exn;       (* AgentSession(...) *)
  agent_fail : option exn;         (* Assistant() *)
  audio_input_fail : option exn;   (* room_io.AudioInputOptions(...) *)
  room_options_fail : option exn;  (* room_io.RoomOptions(...) *)
  start_fail : option exn;         (* await session.start(...) *)
  say_fail : option exn;           (* await session.say(...) *)
  connect_fail : option exn        (* await ctx.connect() *)
}.

Definition emit (o : SessionOp) : M (list SessionOp) unit :=
  modify (λ ops, (ops ++ [o])%list).

(** A constructor call of the framework: it returns or raises. *)
Definition construct (fail : option exn) : M (list SessionOp) unit :=
  match fail with Some e => raise e | None => mret tt end.

(** [await runtime_call(...)]: the call is issued, then may raise. *)
Definition await_call (o : SessionOp) (fail : option exn) : M (list SessionOp) unit :=
  emit o;; construct fail.

Definition session_config (vad : VAD) : SessionConfig := {|
  stt_model := "assemblyai/universal-streaming"; stt_language := "en";
  llm_model := "openai/gpt-4.1-mini";
  tts_target_language_code := "en-IN"; tts_speaker := "anushka";
  cfg_vad := vad;
  preemptive_generation := true |}.

Definition GREETING : string :=
  "Namaste! Welcome to Grand Vista Hotel. " +:+
  "Sure, I can help you with your booking. " +:+
  "May I know your check-in and check-out dates?".

(** The handler, in Python's evaluation order: the keyword arguments of
    [AgentSession(...)] left to right ([stt=], [llm=], [tts=], then the
    [vad=] lookup), the session, then the arguments of [session.start]
    ([Assistant()], then the room options, inner call first). *)
Definition my_agent (rt : SessionRuntime) (ctx : JobContext) : M (list SessionOp) unit :=
  emit (OpSetLogContext (ctx_room_name ctx));;
  construct (stt_fail rt);;
  construct (llm_fail rt);;
  construct (tts_fail rt);;
  vad ← (match ctx_proc_userdata ctx !! "vad" with
         | Some v => mret v
         | None => raise (KeyError "vad")
         end);
  construct (session_fail rt);;
  emit (OpNewSession (session_config vad));;
  construct (agent_fail rt);;
  construct (audio_input_fail rt);;
  construct (room_options_fail rt);;
  await_call (OpStart (ctx_room_name ctx) nc_selector) (start_fail rt);;
  await_call (OpSay GREETING) (say_fail rt);;
  await_call OpConnect (connect_fail rt).

(** The operations of a bootstrap in which nothing raises. *)
Definition bootstrap_ops (ctx : JobContext) (vad : VAD) : list SessionOp :=
  [OpSetLogContext (ctx_room_name ctx);
   OpNewSession (session_config vad);
   OpStart (ctx_room_name ctx) nc_selector;
   OpSay GREETING;
   OpConnect].

(** The outcome of a sequence of steps that each return or raise: the
    first exception, if any. *)
Fixpoint first_failure (fs : list (option exn)) : Res unit :=
  match fs with
  | [] => Ok tt
  | Some e :: _ => Raise e
  | None :: fs' => first_failure fs'
  end.

Definition is_say (o : SessionOp) : bool :=
  match o with OpSay _ => true | _ => false end.

(** Number of utterances the handler issues. *)
Definition count_says (ops : list SessionOp) : nat := length (List.filter is_say ops).

(** The row [book_room] appends. *)
Definition booking_row (guest_name phone check_in check_out : string) (beds : Z) : Row :=
  [CStr guest_name; CStr phone; CStr check_in; CStr check_out; CInt beds].

(** The four strings [book_room] can return. *)
Definition book_room_messages : list string :=
  [MSG_SUCCESS; MSG_MISSING; MSG_INVALID; MSG_FAILURE].

(** The string the two [except] clauses return for an exception. *)
Definition handler_msg (e : exn) : string :=
  if is_json_decode_error e then MSG_INVALID else MSG_FAILURE.

(** The value [book_room] returns, read off its control flow: each step
    of the [try] block either raises (and the handler decides the string)
    or passes its result on. *)
Definition book_room_result (svc : Services) (env : gmap string string)
  (sheets : gmap string (list Row)) (row : Row) : string :=
  let o := env !! CREDS_VAR in
  if negb (py_truthy o) then MSG_MISSING else
  match o with
  | None => handler_msg (TypeError "the JSON object must be str, not NoneType")
  | Some s =>
    match json_loads svc s with
    | Raise e => handler_msg e
    | Ok j =>
      match from_service_account_info svc j scopes with
      | Raise e => handler_msg e
      | Ok c =>
        match authorize_fail svc c with
        | Some e => handler_msg e
        | None =>
          match open_fail svc {| client_creds := c |} SHEET_NAME with
          | Some e => handler_msg e
          | None =>
            match sheets !! SHEET_NAME with
            | None => handler_msg (SpreadsheetNotFound (not_found_text svc))
            | Some _ =>
              match append_fail svc {| client_creds := c |} SHEET_NAME row with
              | Some e => handler_msg e
              | None => MSG_SUCCESS
              end
            end
          end
        end
      end
    end
  end.

(** [prewarm] (agent.py, lines 134-135), installed as [server.setup_fnc]:
    [proc.userdata["vad"] = silero.VAD.load()]. *)
Definition prewarm (userdata : gmap string VAD) : gmap string VAD :=
  <["vad" := SileroVAD]> userdata.

(** ** Concrete inputs used by the witnesses and counterexamples *)

Definition sample_key : Json :=
  JObj [("type", JStr "service_account"); ("client_email", JStr "bot@example.iam");
        ("private_key", JStr "KEY"); ("token_uri", JStr "https://oauth2.example/token")].

(** A json/google-auth/gspread behaviour where ["not-json"] and [""] are
    rejected by the parser (as [json.loads] rejects them), ["{}"] parses to an empty object that google-auth rejects,
    and every other string parses to [sample_key]; the service is reachable. *)
Definition sample_services : Services := {|
  json_loads := λ s,
    if String.eqb s "not-json" || String.eqb s "" then Raise (JSONDecodeError "Expecting value: line 1 column 1 (char 0)")
    else if String.eqb s "{}" then Ok (JObj [])
    else Ok sample_key;
  from_service_account_info := λ j sc,
    match j with
    | JObj [] => Raise (ValueError "Service account info was not in the expected format, missing fields token_uri, client_email.")
    | _ => Ok {| creds_info := j; creds_scopes := sc |}
    end;
  authorize_fail := λ _, None;
  open_fail := λ _ _, None;
  append_fail := λ _ _ _, None;
  append_committed := λ _ _ _, false;
  not_found_text := "<Response [200]>"
|}.

(** The text of a service-account key file, as the environment holds it. *)
Definition sample_key_text : string :=
  let q := String (Ascii.ascii_of_nat 34) EmptyString in
  "{" +:+ q +:+ "type" +:+ q +:+ ": " +:+ q +:+ "service_account" +:+ q +:+ "}".

Definition sample_creds : Creds := {| creds_info := sample_key; creds_scopes := scopes |}.

Definition header_row : Row := [CStr "Name"; CStr "Phone"; CStr "In"; CStr "Out"; CStr "Beds"].

Definition env_with_creds (v : string) : gmap string string := {[ CREDS_VAR := v ]}.

Definition world_with_env (env : gmap string string) : World := {|
  w_env := env;
  w_sheets := {[ SHEET_NAME := [header_row] ]};
  w_calls := [];
  w_log := []
|}.

(** Like [sample_services], but the append call raises a JSONDecodeError
    after the row was stored (an OK reply whose body is not JSON). *)
Definition services_append_json_error : Services := {|
  json_loads := json_loads sample_services;
  from_service_account_info := from_service_account_info sample_services;
  authorize_fail := λ _, None;
  open_fail := λ _ _, None;
  append_fail := λ _ _ _, Some (JSONDecodeError "Expecting value: line 1 column 1 (char 0)");
  append_committed := λ _ _ _, true;
  not_found_text := "<Response [200]>"
|}.

(** Valid credentials, but no spreadsheet titled "Hotel booking". *)
Definition world_no_sheet : World := {|
  w_env := env_with_creds sample_key_text;
  w_sheets := {[ "Other sheet" := [header_row] ]};
  w_calls := [];
  w_log := []
|}.

(** A runtime whose [session.start] raises, and a job whose process has
    run [prewarm]. *)
Definition runtime_ok : SessionRuntime := {|
  stt_fail := None; llm_fail := None; tts_fail := None; session_fail := None;
  agent_fail := None; audio_input_fail := None; room_options_fail := None;
  start_fail := None; say_fail := None; connect_fail := None |}.



(** ** Helper lemmas *)

Lemma alter_lookup_Some {A} (f : A → A) (m : gmap string A) i x :
  m !! i = Some x → alter f i m = <[i := f x]> m.
Proof.
  intros Hi. apply map_eq. intros j.
  destruct (decide (i = j)) as [<-|Hne].
  - by rewrite lookup_alter_eq, lookup_insert_eq, Hi.
  - by rewrite lookup_alter_ne, lookup_insert_ne.
Qed.

Lemma py_truthy_nonempty (s : string) : s ≠ "" → py_truthy (Some s) = true.
Proof. intros Hs. simpl. apply String.eqb_neq in Hs. by rewrite Hs. Qed.

(** Unfolds the monad and the helpers [book_room] is built from. *)
Ltac unfold_book_room :=
  unfold book_room, book_room_try, book_room_except, try_except, log, record_call,
    os_getenv, gspread_authorize, client_open_sheet1, append_row, store_row, lift,
    raise, get, modify, mbind, mret, M_bind, M_ret; cbn.

(** ** Claims about [book_room] *)

(** A successful run of [book_room]: its result, spreadsheets and calls. *)
Lemma book_room_success_run (svc : Services) (guest_name phone check_in check_out : string)
  (beds : Z) (w : World) (s : string) (j : Json) (creds : Creds) (rows : list Row) :
  w_env w !! CREDS_VAR = Some s → s ≠ "" →
  json_loads svc s = Ok j →
  from_service_account_info svc j scopes = Ok creds →
  authorize_fail svc creds = None →
  open_fail svc {| client_creds := creds |} SHEET_NAME = None →
  w_sheets w !! SHEET_NAME = Some rows →
  append_fail svc {| client_creds := creds |} SHEET_NAME
    (booking_row guest_name phone check_in check_out beds) = None →
  fst (book_room svc guest_name phone check_in check_out beds w) = Ok MSG_SUCCESS ∧
  w_sheets (snd (book_room svc guest_name phone check_in check_out beds w)) =
    <[SHEET_NAME := (rows ++ [booking_row guest_name phone check_in check_out beds])%list]>
      (w_sheets w) ∧
  w_calls (snd (book_room svc guest_name phone check_in check_out beds w)) =
    (w_calls w ++ [CallAuthorize; CallOpen SHEET_NAME;
                   CallAppendRow SHEET_NAME (booking_row guest_name phone check_in check_out beds)])%list.
Proof.
  intros Henv Hs Hjson Hcreds Hauth Hopen Hrows Happ.
  destruct w as [env sheets calls lg]; cbn in *.
  unfold_book_room.
  rewrite Henv, (py_truthy_nonempty s Hs); cbn.
  rewrite Hjson, Hcreds, Hauth; cbn. rewrite Hopen; cbn. rewrite Hrows; cbn.
  unfold booking_row in Happ. rewrite Happ; cbn.
  split; [done|]. split.
  - by rewrite (alter_lookup_Some _ _ _ _ Hrows).
  - by rewrite <- !app_assoc.
Qed.

(** [book_room] always returns normally, with [book_room_result]. *)
Lemma book_room_fst (svc : Services) (guest_name phone check_in check_out : string)
  (beds : Z) (w : World) :
  fst (book_room svc guest_name phone check_in check_out beds w) =
  Ok (book_room_result svc (w_env w) (w_sheets w)
        (booking_row guest_name phone check_in check_out beds)).
Proof.
  destruct w as [env sheets calls lg]. unfold book_room_result, booking_row, handler_msg.
  unfold_book_room.
  destruct (env !! CREDS_VAR) as [s|]; cbn; [|done].
  destruct (String.eqb s ""); cbn; [done|].
  destruct (json_loads svc s) as [j|e]; cbn; [|by destruct (is_json_decode_error e)].
  destruct (from_service_account_info svc j scopes) as [c|e]; cbn;
    [|by destruct (is_json_decode_error e)].
  destruct (authorize_fail svc c) as [e|]; cbn; [by destruct (is_json_decode_error e)|].
  destruct (open_fail svc _ SHEET_NAME) as [e|]; cbn; [by destruct (is_json_decode_error e)|].
  destruct (sheets !! SHEET_NAME); cbn; [|done].
  destruct (append_fail svc _ SHEET_NAME _) as [e|]; cbn; [|done].
  destruct (append_committed svc _ SHEET_NAME _); cbn; by destruct (is_json_decode_error e).
Qed.

(** The member of [book_room_messages] that [book_room_result] yields. *)
Lemma handler_msg_in (e : exn) : handler_msg e ∈ book_room_messages.
Proof. unfold handler_msg, book_room_messages. destruct (is_json_decode_error e); set_solver. Qed.

Lemma book_room_result_in (svc : Services) (env : gmap string string)
  (sheets : gmap string (list Row)) (row : Row) :
  book_room_result svc env sheets row ∈ book_room_messages.
Proof.
  unfold book_room_result.
  repeat (case_match; try apply handler_msg_in);
    unfold book_room_messages; set_solver.
Qed.

(** [book_room]'s result depends on the booking fields only through what
    the append call does with the row. *)
Lemma book_room_result_row_insensitive (svc : Services) (env : gmap string string)
  (sheets : gmap string (list Row)) (row row' : Row) :
  (∀ (c : Client) (t : string) (r r' : Row), append_fail svc c t r = append_fail svc c t r') →
  book_room_result svc env sheets row = book_room_result svc env sheets row'.
Proof.
  intros Hind. unfold book_room_result.
  repeat case_match; try done;
    match goal with
    | H1 : append_fail svc ?c ?t row = _, H2 : append_fail svc ?c ?t row' = _ |- _ =>
        pose proof (Hind c t row row'); congruence
    end.
Qed.

(** A run that stops before [gspread.authorize]: no call, no change. *)
Ltac early_exit H :=
  match goal with w : World |- _ => destruct w as [env sheets calls lg] end;
  cbn in *; unfold_book_room; rewrite H; cbn.

(** ** Claims about [book_room] *)

(** C1: with credential JSON that parses and yields service-account
    credentials, and a "Hotel booking" spreadsheet that is reachable (authorize,
    open and append succeed), one call to [book_room] appends exactly one row,
    [guest_name, phone, check_in, check_out, beds] in that order, to the first
    worksheet of that spreadsheet, changes no other spreadsheet, makes exactly
    one append call, and returns the success string. *)
Theorem book_room_appends_one_row (svc : Services) (guest_name phone check_in check_out : string)
  (beds : Z) (w : World) (s : string) (j : Json) (creds : Creds) (rows : list Row) :
  w_env w !! CREDS_VAR = Some s → s ≠ "" →
  json_loads svc s = Ok j →
  from_service_account_info svc j scopes = Ok creds →
  authorize_fail svc creds = None →
  open_fail svc {| client_creds := creds |} SHEET_NAME = None →
  w_sheets w !! SHEET_NAME = Some rows →
  append_fail svc {| client_creds := creds |} SHEET_NAME
    (booking_row guest_name phone check_in check_out beds) = None →
  fst (book_room svc guest_name phone check_in check_out beds w) = Ok MSG_SUCCESS ∧
  w_sheets (snd (book_room svc guest_name phone check_in check_out beds w)) =
    <[SHEET_NAME := (rows ++ [booking_row guest_name phone check_in check_out beds])%list]>
      (w_sheets w) ∧
  w_calls (snd (book_room svc guest_name phone check_in check_out beds w)) =
    (w_calls w ++ [CallAuthorize; CallOpen SHEET_NAME;
                   CallAppendRow SHEET_NAME (booking_row guest_name phone check_in check_out beds)])%list.
Proof. apply book_room_success_run. Qed.

(** C2: when GOOGLE_CREDENTIALS_JSON is unset, [book_room] makes no call to
    the spreadsheet service, leaves every spreadsheet unchanged and returns
    the missing-credentials message. *)
Theorem book_room_unset_env (svc : Services) (guest_name phone check_in check_out : string)
  (beds : Z) (w : World) :
  w_env w !! CREDS_VAR = None →
  fst (book_room svc guest_name phone check_in check_out beds w) = Ok MSG_MISSING ∧
  w_calls (snd (book_room svc guest_name phone check_in check_out beds w)) = w_calls w ∧
  w_sheets (snd (book_room svc guest_name phone check_in check_out beds w)) = w_sheets w.
Proof. intros Henv. early_exit Henv. done. Qed.

(** C3 (as amended): when GOOGLE_CREDENTIALS_JSON is set to NON-EMPTY text
    that [json.loads] rejects with a JSONDecodeError, [book_room] makes no
    call to the spreadsheet service, leaves every spreadsheet unchanged and
    returns the invalid-credentials message, which differs from the
    missing-credentials message. *)
Theorem book_room_invalid_json (svc : Services) (guest_name phone check_in check_out : string)
  (beds : Z) (w : World) (s : string) (e : exn) :
  w_env w !! CREDS_VAR = Some s → s ≠ "" →
  json_loads svc s = Raise e → is_json_decode_error e = true →
  fst (book_room svc guest_name phone check_in check_out beds w) = Ok MSG_INVALID ∧
  w_calls (snd (book_room svc guest_name phone check_in check_out beds w)) = w_calls w ∧
  w_sheets (snd (book_room svc guest_name phone check_in check_out beds w)) = w_sheets w ∧
  MSG_INVALID ≠ MSG_MISSING.
Proof.
  intros Henv Hs Hjson Hdec. early_exit Henv.
  apply String.eqb_neq in Hs. rewrite Hs; cbn. rewrite Hjson; cbn. rewrite Hdec; cbn.
  split_and!; done.
Qed.

(** C3 fails as stated: GOOGLE_CREDENTIALS_JSON set to the empty string,
    which is not valid JSON ([json.loads("")] raises JSONDecodeError), yields
    the missing-credentials message, not the invalid-credentials one. *)
Lemma book_room_invalid_json_cex :
  ¬ (∀ (svc : Services) (guest_name phone check_in check_out : string) (beds : Z)
       (w : World) (s : string) (e : exn),
       w_env w !! CREDS_VAR = Some s →
       json_loads svc s = Raise e → is_json_decode_error e = true →
       fst (book_room svc guest_name phone check_in check_out beds w) = Ok MSG_INVALID).
Proof.
  intros Hclaim.
  specialize (Hclaim sample_services "Rahul Sharma" "9999999999" "12 March" "14 March" 2%Z
                (world_with_env (env_with_creds "")) ""
                (JSONDecodeError "Expecting value: line 1 column 1 (char 0)")
                ltac:(vm_compute; reflexivity) ltac:(vm_compute; reflexivity)
                ltac:(vm_compute; reflexivity)).
  vm_compute in Hclaim. discriminate.
Qed.

(** C4: whatever the environment and whatever the json, google-auth and
    gspread calls do, [book_room] returns normally (no exception escapes it)
    and its result is one of the four strings: success, missing credentials,
    invalid credentials or the generic failure message. *)
Theorem book_room_total (svc : Services) (guest_name phone check_in check_out : string)
  (beds : Z) (w : World) :
  ∃ msg, fst (book_room svc guest_name phone check_in check_out beds w) = Ok msg ∧
         msg ∈ book_room_messages.
Proof.
  eexists. split; [apply book_room_fst|]. apply book_room_result_in.
Qed.

(** C5: [book_room] validates none of its fields.  For every name, phone,
    dates and every integer bed count (2 or more, 0, negative): it returns one
    of the four strings, none of which is a validation error; if the append
    call treats all rows alike, the returned string does not depend on the
    fields at all; and when the credentials are valid and the sheet reachable
    the row is appended with the values as given. *)
Theorem book_room_no_field_validation (svc : Services) (w : World) :
  (∀ (guest_name phone check_in check_out : string) (beds : Z),
     ∃ msg, fst (book_room svc guest_name phone check_in check_out beds w) = Ok msg ∧
            msg ∈ book_room_messages) ∧
  ((∀ (c : Client) (t : string) (r r' : Row), append_fail svc c t r = append_fail svc c t r') →
   ∀ (guest_name phone check_in check_out : string) (beds : Z)
     (guest_name' phone' check_in' check_out' : string) (beds' : Z),
     fst (book_room svc guest_name phone check_in check_out beds w) =
     fst (book_room svc guest_name' phone' check_in' check_out' beds' w)) ∧
  (∀ (guest_name phone check_in check_out : string) (beds : Z)
     (s : string) (j : Json) (creds : Creds) (rows : list Row),
     w_env w !! CREDS_VAR = Some s → s ≠ "" →
     json_loads svc s = Ok j →
     from_service_account_info svc j scopes = Ok creds →
     authorize_fail svc creds = None →
     open_fail svc {| client_creds := creds |} SHEET_NAME = None →
     w_sheets w !! SHEET_NAME = Some rows →
     append_fail svc {| client_creds := creds |} SHEET_NAME
       (booking_row guest_name phone check_in check_out beds) = None →
     fst (book_room svc guest_name phone check_in check_out beds w) = Ok MSG_SUCCESS ∧
     w_sheets (snd (book_room svc guest_name phone check_in check_out beds w)) =
       <[SHEET_NAME := (rows ++ [[CStr guest_name; CStr phone; CStr check_in;
                                  CStr check_out; CInt beds]])%list]> (w_sheets w)).
Proof.
  split_and!.
  - intros. eexists. split; [apply book_room_fst|]. apply book_room_result_in.
  - intros Hind. intros. rewrite !book_room_fst. f_equal.
    by apply book_room_result_row_insensitive.
  - intros. edestruct book_room_success_run as (Hres & Hsheets & _); eauto.
Qed.

(** C9: GOOGLE_CREDENTIALS_JSON set to the empty string is treated as
    absent: [book_room] returns the missing-credentials message (not the
    invalid-JSON one), makes no call to the spreadsheet service and leaves
    every spreadsheet unchanged. *)
Theorem book_room_empty_env (svc : Services) (guest_name phone check_in check_out : string)
  (beds : Z) (w : World) :
  w_env w !! CREDS_VAR = Some "" →
  fst (book_room svc guest_name phone check_in check_out beds w) = Ok MSG_MISSING ∧
  w_calls (snd (book_room svc guest_name phone check_in check_out beds w)) = w_calls w ∧
  w_sheets (snd (book_room svc guest_name phone check_in check_out beds w)) = w_sheets w.
Proof. intros Henv. early_exit Henv. done. Qed.

(** C10: GOOGLE_CREDENTIALS_JSON holding valid JSON that google-auth rejects
    as a service-account key (it raises an exception other than
    JSONDecodeError, a ValueError for missing fields) makes [book_room] return
    the generic failure message, with no call to the spreadsheet service and
    no row appended. *)
Theorem book_room_bad_key (svc : Services) (guest_name phone check_in check_out : string)
  (beds : Z) (w : World) (s : string) (j : Json) (e : exn) :
  w_env w !! CREDS_VAR = Some s → s ≠ "" →
  json_loads svc s = Ok j →
  from_service_account_info svc j scopes = Raise e →
  is_json_decode_error e = false →
  fst (book_room svc guest_name phone check_in check_out beds w) = Ok MSG_FAILURE ∧
  w_calls (snd (book_room svc guest_name phone check_in check_out beds w)) = w_calls w ∧
  w_sheets (snd (book_room svc guest_name phone check_in check_out beds w)) = w_sheets w.
Proof.
  intros Henv Hs Hjson Hkey Hdec. early_exit Henv.
  apply String.eqb_neq in Hs. rewrite Hs; cbn. rewrite Hjson, Hkey; cbn. rewrite Hdec; cbn.
  done.
Qed.

(** ** Claims about the session handler *)

(** Splits a run of [my_agent] into its paths: each fallible step either
    returns or raises. *)
Ltac my_agent_paths :=
  match goal with rt : SessionRuntime |- _ => destruct rt end;
  unfold my_agent, bootstrap_ops, await_call, construct, emit, raise, modify,
    mbind, mret, M_bind, M_ret, count_says; cbn;
  repeat match goal with
  | |- context [ctx_proc_userdata ?c !! "vad"] =>
      destruct (ctx_proc_userdata c !! "vad") as [[]|]; cbn
  | |- context [match ?x with Some _ => _ | None => _ end] => is_var x; destruct x; cbn
  end.

(** Closes the goals left on one path of [my_agent]. *)
Ltac my_agent_leaf :=
  first
    [ done | lia
    | by eexists [] | by eexists [_] | by eexists [_; _] | by eexists [_; _; _]
    | by eexists [_; _; _; _] | by eexists [_; _; _; _; _]
    | intros _; split; [apply list_elem_of_In; cbn; tauto | done]
    | intros Hx; first
        [ discriminate Hx | by destruct Hx | done
        | apply list_elem_of_In in Hx; cbn in Hx; naive_solver ] ].

(** The operations of any run of [my_agent] are a prefix of those of a run
    in which nothing raises, and equal to them when the handler returns. *)
Lemma my_agent_ops (rt : SessionRuntime) (ctx : JobContext) :
  ∃ vad : VAD,
    snd (my_agent rt ctx []) `prefix_of` bootstrap_ops ctx vad ∧
    (fst (my_agent rt ctx []) = Ok tt → snd (my_agent rt ctx []) = bootstrap_ops ctx vad).
Proof.
  exists SileroVAD. my_agent_paths; split; my_agent_leaf.
Qed.

(** C7: the noise-cancellation selector depends only on the participant's
    kind: a SIP participant gets the telephony profile (BVCTelephony), every
    other kind the generic one (BVC); and it is the selector every run of
    [my_agent] passes to [session.start]. *)
Theorem nc_selector_by_kind :
  (∀ p : NCParams, participant_kind (nc_participant p) = PARTICIPANT_KIND_SIP →
     nc_selector p = BVCTelephony) ∧
  (∀ p : NCParams, participant_kind (nc_participant p) ≠ PARTICIPANT_KIND_SIP →
     nc_selector p = BVC) ∧
  (∀ p q : NCParams, participant_kind (nc_participant p) = participant_kind (nc_participant q) →
     nc_selector p = nc_selector q) ∧
  (∀ (rt : SessionRuntime) (ctx : JobContext) (room : string) sel,
     OpStart room sel ∈ snd (my_agent rt ctx []) → sel = nc_selector).
Proof.
  split_and!.
  - intros p Hk. unfold nc_selector. by rewrite decide_True.
  - intros p Hk. unfold nc_selector. by rewrite decide_False.
  - intros p q Hk. unfold nc_selector. by rewrite Hk.
  - intros rt ctx room sel Hin.
    destruct (my_agent_ops rt ctx) as (vad & [k Hk] & _).
    assert (Hin' : OpStart room sel ∈ bootstrap_ops ctx vad).
    { rewrite Hk. apply elem_of_app. by left. }
    unfold bootstrap_ops in Hin'.
    repeat (apply elem_of_cons in Hin' as [Hin'|Hin']; [try discriminate|]);
      [by injection Hin'|set_solver].
Qed.



(** ** Witnesses: the claims' theorems applied at concrete inputs *)

Lemma book_room_appends_one_row_witness :
  let w := world_with_env (env_with_creds sample_key_text) in
  let row := booking_row "Rahul Sharma" "9999999999" "12 March" "14 March" 2 in
  fst (book_room sample_services "Rahul Sharma" "9999999999" "12 March" "14 March" 2 w)
    = Ok MSG_SUCCESS ∧
  w_sheets (snd (book_room sample_services "Rahul Sharma" "9999999999" "12 March" "14 March" 2 w))
    = <[SHEET_NAME := ([header_row] ++ [row])%list]> (w_sheets w) ∧
  w_calls (snd (book_room sample_services "Rahul Sharma" "9999999999" "12 March" "14 March" 2 w))
    = (w_calls w ++ [CallAuthorize; CallOpen SHEET_NAME; CallAppendRow SHEET_NAME row])%list.
Proof.
  cbn zeta.
  apply (book_room_appends_one_row sample_services "Rahul Sharma" "9999999999" "12 March"
           "14 March" 2 _ sample_key_text sample_key sample_creds [header_row]);
    vm_compute; try reflexivity; discriminate.
Defined.

Lemma book_room_unset_env_witness :
  let w := world_with_env ∅ in
  fst (book_room sample_services "Rahul Sharma" "9999999999" "12 March" "14 March" 2 w)
    = Ok MSG_MISSING ∧
  w_calls (snd (book_room sample_services "Rahul Sharma" "9999999999" "12 March" "14 March" 2 w))
    = w_calls w ∧
  w_sheets (snd (book_room sample_services "Rahul Sharma" "9999999999" "12 March" "14 March" 2 w))
    = w_sheets w.
Proof.
  cbn zeta. apply book_room_unset_env. vm_compute. reflexivity.
Defined.

Lemma book_room_invalid_json_witness :
  let w := world_with_env (env_with_creds "not-json") in
  fst (book_room sample_services "Rahul Sharma" "9999999999" "12 March" "14 March" 2 w)
    = Ok MSG_INVALID ∧
  w_calls (snd (book_room sample_services "Rahul Sharma" "9999999999" "12 March" "14 March" 2 w))
    = w_calls w ∧
  w_sheets (snd (book_room sample_services "Rahul Sharma" "9999999999" "12 March" "14 March" 2 w))
    = w_sheets w ∧
  MSG_INVALID ≠ MSG_MISSING.
Proof.
  cbn zeta.
  apply (book_room_invalid_json sample_services _ _ _ _ _ _ "not-json"
           (JSONDecodeError "Expecting value: line 1 column 1 (char 0)"));
    vm_compute; try reflexivity; discriminate.
Defined.

Lemma book_room_empty_env_witness :
  let w := world_with_env (env_with_creds "") in
  fst (book_room sample_services "Rahul Sharma" "9999999999" "12 March" "14 March" 2 w)
    = Ok MSG_MISSING ∧
  w_calls (snd (book_room sample_services "Rahul Sharma" "9999999999" "12 March" "14 March" 2 w))
    = w_calls w ∧
  w_sheets (snd (book_room sample_services "Rahul Sharma" "9999999999" "12 March" "14 March" 2 w))
    = w_sheets w.
Proof.
  cbn zeta. apply book_room_empty_env. vm_compute. reflexivity.
Defined.

Lemma book_room_bad_key_witness :
  let w := world_with_env (env_with_creds "{}") in
  fst (book_room sample_services "Rahul Sharma" "9999999999" "12 March" "14 March" 2 w)
    = Ok MSG_FAILURE ∧
  w_calls (snd (book_room sample_services "Rahul Sharma" "9999999999" "12 March" "14 March" 2 w))
    = w_calls w ∧
  w_sheets (snd (book_room sample_services "Rahul Sharma" "9999999999" "12 March" "14 March" 2 w))
    = w_sheets w.
Proof.
  cbn zeta.
  apply (book_room_bad_key sample_services _ _ _ _ _ _ "{}" (JObj [])
           (ValueError "Service account info was not in the expected format, missing fields token_uri, client_email."));
    vm_compute; try reflexivity; discriminate.
Defined.

(** Beds above the maximum of 2 are written as given: the tool leaves the
    rule to the conversation. *)
Example book_room_five_beds :
  w_sheets (snd (book_room sample_services "Rahul Sharma" "9999999999" "12 March" "14 March" 5
                  (world_with_env (env_with_creds sample_key_text)))) !! SHEET_NAME
  = Some [header_row; [CStr "Rahul Sharma"; CStr "9999999999"; CStr "12 March";
                       CStr "14 March"; CInt 5]].
Proof. vm_compute. reflexivity. Qed.

(** ** Further properties of [book_room] *)

(** Splits a run of [book_room] into its control-flow paths. *)
Ltac book_room_paths :=
  match goal with w : World |- _ => destruct w as [env sheets calls lg] end;
  unfold_book_room;
  repeat match goal with
  | |- context [?m !! CREDS_VAR] => destruct (m !! CREDS_VAR) eqn:?; cbn
  | |- context [String.eqb ?s ""] => destruct (String.eqb s "") eqn:?; cbn
  | |- context [json_loads ?svc ?s] => destruct (json_loads svc s) eqn:?; cbn
  | |- context [from_service_account_info ?svc ?j ?sc] =>
      destruct (from_service_account_info svc j sc) eqn:?; cbn
  | |- context [authorize_fail ?svc ?c] => destruct (authorize_fail svc c) eqn:?; cbn
  | |- context [open_fail ?svc ?c ?t] => destruct (open_fail svc c t) eqn:?; cbn
  | |- context [?m !! SHEET_NAME] => destruct (m !! SHEET_NAME) eqn:?; cbn
  | |- context [append_fail ?svc ?c ?t ?r] => destruct (append_fail svc c t r) eqn:?; cbn
  | |- context [append_committed ?svc ?c ?t ?r] => destruct (append_committed svc c t r) eqn:?; cbn
  | |- context [is_json_decode_error ?e] => destruct (is_json_decode_error e) eqn:?; cbn
  end.

(** [book_room] never changes the process environment. *)
Lemma book_room_env (svc : Services) (guest_name phone check_in check_out : string)
  (beds : Z) (w : World) :
  w_env (snd (book_room svc guest_name phone check_in check_out beds w)) = w_env w.
Proof. book_room_paths; done. Qed.

(** [book_room] changes the spreadsheets at most by appending the booking
    row to the first worksheet of "Hotel booking".  A successful run has
    appended it; a run that reports anything else has appended it only when
    the append call itself raised after the service had stored the row. *)
Theorem book_room_sheets_effect (svc : Services) (guest_name phone check_in check_out : string)
  (beds : Z) (w : World) :
  let r := book_room svc guest_name phone check_in check_out beds w in
  let row := booking_row guest_name phone check_in check_out beds in
  (w_sheets (snd r) = w_sheets w ∨
   ∃ rows : list Row, w_sheets w !! SHEET_NAME = Some rows ∧
     w_sheets (snd r) = <[SHEET_NAME := (rows ++ [row])%list]> (w_sheets w)) ∧
  (fst r = Ok MSG_SUCCESS →
   ∃ rows : list Row, w_sheets w !! SHEET_NAME = Some rows ∧
     w_sheets (snd r) = <[SHEET_NAME := (rows ++ [row])%list]> (w_sheets w)) ∧
  (fst r ≠ Ok MSG_SUCCESS → w_sheets (snd r) ≠ w_sheets w →
   CallAppendRow SHEET_NAME row ∈ w_calls (snd r) ∧
   ∃ (cl : Client) (e : exn),
     append_fail svc cl SHEET_NAME row = Some e ∧ append_committed svc cl SHEET_NAME row = true).
Proof.
  cbn zeta. unfold booking_row. book_room_paths;
    split_and!;
    first
      [ left; reflexivity
      | intros Hx; discriminate Hx
      | intros Hx; by destruct Hx
      | intros _ Hx; by destruct Hx
      | (right || intros _); eexists; split; [reflexivity|];
        match goal with H : _ !! SHEET_NAME = Some _ |- _ =>
          rewrite (alter_lookup_Some _ _ _ _ H); reflexivity end
      | intros _ _; split; [set_solver | eexists _, _; split; eassumption] ].
Qed.

(** The calls [book_room] makes to the spreadsheet service are always a
    prefix of: authorize, open "Hotel booking", append the booking row.  It
    never opens another spreadsheet, never appends twice, and a successful
    run has made all three calls. *)
Theorem book_room_calls_prefix (svc : Services) (guest_name phone check_in check_out : string)
  (beds : Z) (w : World) :
  let r := book_room svc guest_name phone check_in check_out beds w in
  ∃ n : nat, (n ≤ 3)%nat ∧
    w_calls (snd r) =
      (w_calls w ++ take n [CallAuthorize; CallOpen SHEET_NAME;
                            CallAppendRow SHEET_NAME
                              (booking_row guest_name phone check_in check_out beds)])%list ∧
    (fst r = Ok MSG_SUCCESS → n = 3%nat).
Proof.
  cbn zeta. book_room_paths;
    first
      [ exists 0%nat; split_and!; [lia|by rewrite app_nil_r|by intros ?]
      | exists 1%nat; split_and!; [lia|reflexivity|intros Hr; discriminate Hr]
      | exists 2%nat; split_and!; [lia|by rewrite <- app_assoc|intros Hr; discriminate Hr]
      | exists 3%nat; split_and!; [lia|by rewrite <- !app_assoc|done] ].
Qed.

(** Every call of [book_room] adds exactly two log entries: first
    "Attempting to book for <guest_name>" at INFO, then one entry that
    matches the returned string: INFO for success, ERROR with a fixed text
    for missing or invalid credentials, and for the generic failure ERROR
    with the text of the exception the [try] block raised, which is not a
    JSONDecodeError. *)
Theorem book_room_log_entries (svc : Services) (guest_name phone check_in check_out : string)
  (beds : Z) (w : World) :
  let r := book_room svc guest_name phone check_in check_out beds w in
  let w0 := snd (log INFO ("Attempting to book for " +:+ guest_name) w) in
  ∃ entry : Level * string,
    w_log (snd r) = (w_log w ++ [(INFO, "Attempting to book for " +:+ guest_name); entry])%list ∧
    (fst r = Ok MSG_SUCCESS → entry = (INFO, "Booking saved successfully.")) ∧
    (fst r = Ok MSG_MISSING →
       entry = (ERROR, "Missing GOOGLE_CREDENTIALS_JSON environment variable.")) ∧
    (fst r = Ok MSG_INVALID → entry = (ERROR, "GOOGLE_CREDENTIALS_JSON contains invalid JSON.")) ∧
    (fst r = Ok MSG_FAILURE →
       ∃ e : exn,
         fst (book_room_try svc guest_name phone check_in check_out beds w0) = Raise e ∧
         is_json_decode_error e = false ∧
         entry = (ERROR, "Failed to save booking: " +:+ exn_str e)).
Proof.
  cbn zeta. book_room_paths;
    (eexists; split; [rewrite <- app_assoc; reflexivity|];
     split_and!; intros Hr;
     first [ discriminate Hr | reflexivity
           | eexists; split_and!; [reflexivity | first [reflexivity | assumption] | reflexivity] ]).
Qed.

(** A JSONDecodeError raised anywhere in the [try] block, not only by
    [json.loads], is reported as invalid credentials: when the credentials
    are accepted, the sheet is opened and the append call raises a
    JSONDecodeError, [book_room] returns the invalid-credentials message
    after making all three calls, and the sheet holds the booking row
    exactly when the service stored it before raising. *)
Theorem book_room_append_json_error (svc : Services) (guest_name phone check_in check_out : string)
  (beds : Z) (w : World) (s : string) (j : Json) (creds : Creds) (rows : list Row) (e : exn) :
  w_env w !! CREDS_VAR = Some s → s ≠ "" →
  json_loads svc s = Ok j →
  from_service_account_info svc j scopes = Ok creds →
  authorize_fail svc creds = None →
  open_fail svc {| client_creds := creds |} SHEET_NAME = None →
  w_sheets w !! SHEET_NAME = Some rows →
  append_fail svc {| client_creds := creds |} SHEET_NAME
    (booking_row guest_name phone check_in check_out beds) = Some e →
  is_json_decode_error e = true →
  fst (book_room svc guest_name phone check_in check_out beds w) = Ok MSG_INVALID ∧
  w_sheets (snd (book_room svc guest_name phone check_in check_out beds w)) =
    (if append_committed svc {| client_creds := creds |} SHEET_NAME
          (booking_row guest_name phone check_in check_out beds)
     then <[SHEET_NAME := (rows ++ [booking_row guest_name phone check_in check_out beds])%list]>
            (w_sheets w)
     else w_sheets w) ∧
  w_calls (snd (book_room svc guest_name phone check_in check_out beds w)) =
    (w_calls w ++ [CallAuthorize; CallOpen SHEET_NAME;
                   CallAppendRow SHEET_NAME (booking_row guest_name phone check_in check_out beds)])%list.
Proof.
  intros Henv Hs Hjson Hcreds Hauth Hopen Hrows Happ Hdec.
  destruct w as [env sheets calls lg]; cbn in *.
  unfold_book_room.
  rewrite Henv, (py_truthy_nonempty s Hs); cbn.
  rewrite Hjson, Hcreds, Hauth; cbn. rewrite Hopen; cbn. rewrite Hrows; cbn.
  unfold booking_row in *. rewrite Happ; cbn.
  destruct (append_committed _ _ _ _); cbn; rewrite Hdec; cbn.
  - split_and!; [done| |by rewrite <- !app_assoc]. by rewrite (alter_lookup_Some _ _ _ _ Hrows).
  - split_and!; [done|done|]. by rewrite <- !app_assoc.
Qed.

(** When authorization succeeds but no spreadsheet is titled
    "Hotel booking", [book_room] has made exactly the authorize and open
    calls, appends nothing, logs the text of the SpreadsheetNotFound
    exception and returns the generic failure message. *)
Theorem book_room_sheet_not_found (svc : Services) (guest_name phone check_in check_out : string)
  (beds : Z) (w : World) (s : string) (j : Json) (creds : Creds) :
  w_env w !! CREDS_VAR = Some s → s ≠ "" →
  json_loads svc s = Ok j →
  from_service_account_info svc j scopes = Ok creds →
  authorize_fail svc creds = None →
  open_fail svc {| client_creds := creds |} SHEET_NAME = None →
  w_sheets w !! SHEET_NAME = None →
  fst (book_room svc guest_name phone check_in check_out beds w) = Ok MSG_FAILURE ∧
  w_sheets (snd (book_room svc guest_name phone check_in check_out beds w)) = w_sheets w ∧
  w_calls (snd (book_room svc guest_name phone check_in check_out beds w)) =
    (w_calls w ++ [CallAuthorize; CallOpen SHEET_NAME])%list ∧
  last (w_log (snd (book_room svc guest_name phone check_in check_out beds w))) =
    Some (ERROR, "Failed to save booking: " +:+ not_found_text svc).
Proof.
  intros Henv Hs Hjson Hcreds Hauth Hopen Hrows.
  destruct w as [env sheets calls lg]; cbn in *.
  unfold_book_room.
  rewrite Henv, (py_truthy_nonempty s Hs); cbn.
  rewrite Hjson, Hcreds, Hauth; cbn. rewrite Hopen; cbn. rewrite Hrows; cbn.
  split_and!; [done|done|by rewrite <- app_assoc|]. by rewrite last_snoc.
Qed.

(** [book_room] does not deduplicate: calling it twice with the same
    booking, with valid credentials and a reachable sheet, appends the same
    row twice and reports success both times. *)
Theorem book_room_twice_appends_twice (svc : Services) (guest_name phone check_in check_out : string)
  (beds : Z) (w : World) (s : string) (j : Json) (creds : Creds) (rows : list Row) :
  w_env w !! CREDS_VAR = Some s → s ≠ "" →
  json_loads svc s = Ok j →
  from_service_account_info svc j scopes = Ok creds →
  authorize_fail svc creds = None →
  open_fail svc {| client_creds := creds |} SHEET_NAME = None →
  w_sheets w !! SHEET_NAME = Some rows →
  append_fail svc {| client_creds := creds |} SHEET_NAME
    (booking_row guest_name phone check_in check_out beds) = None →
  let w1 := snd (book_room svc guest_name phone check_in check_out beds w) in
  fst (book_room svc guest_name phone check_in check_out beds w) = Ok MSG_SUCCESS ∧
  fst (book_room svc guest_name phone check_in check_out beds w1) = Ok MSG_SUCCESS ∧
  w_sheets (snd (book_room svc guest_name phone check_in check_out beds w1)) =
    <[SHEET_NAME := (rows ++ [booking_row guest_name phone check_in check_out beds;
                              booking_row guest_name phone check_in check_out beds])%list]>
      (w_sheets w).
Proof.
  intros Henv Hs Hjson Hcreds Hauth Hopen Hrows Happ w1.
  destruct (book_room_success_run svc guest_name phone check_in check_out beds w s j creds rows)
    as (Hr1 & Hs1 & _); try done.
  destruct (book_room_success_run svc guest_name phone check_in check_out beds w1 s j creds
              (rows ++ [booking_row guest_name phone check_in check_out beds])%list)
    as (Hr2 & Hs2 & _); try done.
  - unfold w1. by rewrite book_room_env.
  - unfold w1. by rewrite Hs1, lookup_insert_eq.
  - split_and!; [done|done|]. rewrite Hs2. unfold w1. rewrite Hs1, insert_insert_eq.
    by rewrite <- app_assoc.
Qed.

(** [book_room] contacts the spreadsheet service only when the credential
    variable is set, non-empty, parses as JSON and yields service-account
    credentials with the two scopes. *)
Theorem book_room_calls_need_credentials (svc : Services)
  (guest_name phone check_in check_out : string) (beds : Z) (w : World) :
  w_calls (snd (book_room svc guest_name phone check_in check_out beds w)) ≠ w_calls w →
  ∃ (s : string) (j : Json) (creds : Creds),
    w_env w !! CREDS_VAR = Some s ∧ s ≠ "" ∧ json_loads svc s = Ok j ∧
    from_service_account_info svc j scopes = Ok creds.
Proof.
  book_room_paths; intros Hc;
    first [ by destruct Hc
          | do 3 eexists;
            split_and!; [reflexivity | by apply String.eqb_neq | eassumption | eassumption] ].
Qed.

(** ** Further properties of [prewarm] and [my_agent] *)

(** Without [prewarm] (no "vad" in the process's userdata) the handler
    never builds a session: after setting the log context it evaluates the
    STT, LLM and TTS constructors, and then the [vad=] lookup raises
    KeyError('vad') unless one of those constructors raised first.  No
    session is started, no greeting is said and the room is not joined. *)
Theorem my_agent_without_prewarm (rt : SessionRuntime) (ctx : JobContext) :
  ctx_proc_userdata ctx !! "vad" = None →
  snd (my_agent rt ctx []) = [OpSetLogContext (ctx_room_name ctx)] ∧
  fst (my_agent rt ctx []) =
    first_failure [stt_fail rt; llm_fail rt; tts_fail rt; Some (KeyError "vad")].
Proof.
  intros Hvad. destruct rt as [stt llm tts ? ? ? ? ? ? ?].
  unfold my_agent, construct, emit, raise, modify, mbind, mret, M_bind, M_ret; cbn.
  destruct stt, llm, tts; cbn; rewrite ?Hvad; done.
Qed.

(** After [prewarm], the [vad=] lookup always succeeds: the handler's
    outcome is the first exception among its ten steps in source order (the
    STT, LLM, TTS and session constructors, [Assistant()], the two room
    option constructors, then the awaited start, say and connect), and a
    session configured with the prewarmed Silero VAD is created exactly when
    the STT, LLM, TTS and session constructors all return. *)
Theorem my_agent_after_prewarm (rt : SessionRuntime) (room : string) (userdata : gmap string VAD) :
  let ctx := {| ctx_room_name := room; ctx_proc_userdata := prewarm userdata |} in
  fst (my_agent rt ctx []) =
    first_failure [stt_fail rt; llm_fail rt; tts_fail rt; session_fail rt; agent_fail rt;
                   audio_input_fail rt; room_options_fail rt; start_fail rt; say_fail rt;
                   connect_fail rt] ∧
  (OpNewSession (session_config SileroVAD) ∈ snd (my_agent rt ctx []) ↔
   stt_fail rt = None ∧ llm_fail rt = None ∧ tts_fail rt = None ∧ session_fail rt = None).
Proof.
  cbn zeta. destruct rt as [stt llm tts ses agt aud ropt st sy co].
  unfold my_agent, await_call, construct, emit, raise, modify, mbind, mret, M_bind, M_ret,
    prewarm; cbn.
  rewrite lookup_insert_eq; cbn.
  destruct stt, llm, tts, ses; cbn;
    try (split; [reflexivity|split;
           [intros Hx; apply list_elem_of_In in Hx; cbn in Hx; naive_solver
           |intros (?&?&?&?); discriminate]]).
  destruct agt, aud, ropt, st, sy, co; cbn;
    (split; [reflexivity|split; [done|intros _; apply list_elem_of_In; cbn; tauto]]).
Qed.

(** ** Witnesses of the further properties *)

Lemma book_room_append_json_error_witness :
  let w := world_with_env (env_with_creds sample_key_text) in
  let row := booking_row "Rahul Sharma" "9999999999" "12 March" "14 March" 2 in
  fst (book_room services_append_json_error "Rahul Sharma" "9999999999" "12 March" "14 March" 2 w)
    = Ok MSG_INVALID ∧
  w_sheets (snd (book_room services_append_json_error "Rahul Sharma" "9999999999" "12 March"
                   "14 March" 2 w)) =
    (if append_committed services_append_json_error {| client_creds := sample_creds |} SHEET_NAME row
     then <[SHEET_NAME := ([header_row] ++ [row])%list]> (w_sheets w)
     else w_sheets w) ∧
  w_calls (snd (book_room services_append_json_error "Rahul Sharma" "9999999999" "12 March"
                  "14 March" 2 w))
    = (w_calls w ++ [CallAuthorize; CallOpen SHEET_NAME; CallAppendRow SHEET_NAME row])%list.
Proof.
  cbn zeta.
  apply (book_room_append_json_error services_append_json_error "Rahul Sharma" "9999999999"
           "12 March" "14 March" 2 _ sample_key_text sample_key sample_creds [header_row]
           (JSONDecodeError "Expecting value: line 1 column 1 (char 0)"));
    vm_compute; try reflexivity; discriminate.
Defined.

Lemma book_room_sheet_not_found_witness :
  fst (book_room sample_services "Rahul Sharma" "9999999999" "12 March" "14 March" 2 world_no_sheet)
    = Ok MSG_FAILURE ∧
  w_sheets (snd (book_room sample_services "Rahul Sharma" "9999999999" "12 March" "14 March" 2
                   world_no_sheet)) = w_sheets world_no_sheet ∧
  w_calls (snd (book_room sample_services "Rahul Sharma" "9999999999" "12 March" "14 March" 2
                  world_no_sheet))
    = (w_calls world_no_sheet ++ [CallAuthorize; CallOpen SHEET_NAME])%list ∧
  last (w_log (snd (book_room sample_services "Rahul Sharma" "9999999999" "12 March" "14 March" 2
                      world_no_sheet)))
    = Some (ERROR, "Failed to save booking: " +:+ not_found_text sample_services).
Proof.
  apply (book_room_sheet_not_found sample_services "Rahul Sharma" "9999999999" "12 March"
           "14 March" 2 world_no_sheet sample_key_text sample_key sample_creds);
    vm_compute; try reflexivity; discriminate.
Defined.

Lemma book_room_twice_appends_twice_witness :
  let w := world_with_env (env_with_creds sample_key_text) in
  let row := booking_row "Rahul Sharma" "9999999999" "12 March" "14 March" 2 in
  let w1 := snd (book_room sample_services "Rahul Sharma" "9999999999" "12 March" "14 March" 2 w) in
  fst (book_room sample_services "Rahul Sharma" "9999999999" "12 March" "14 March" 2 w)
    = Ok MSG_SUCCESS ∧
  fst (book_room sample_services "Rahul Sharma" "9999999999" "12 March" "14 March" 2 w1)
    = Ok MSG_SUCCESS ∧
  w_sheets (snd (book_room sample_services "Rahul Sharma" "9999999999" "12 March" "14 March" 2 w1))
    = <[SHEET_NAME := ([header_row] ++ [row; row])%list]> (w_sheets w).
Proof.
  cbn zeta.
  apply (book_room_twice_appends_twice sample_services "Rahul Sharma" "9999999999" "12 March"
           "14 March" 2 _ sample_key_text sample_key sample_creds [header_row]);
    vm_compute; try reflexivity; discriminate.
Defined.

Lemma my_agent_without_prewarm_witness :
  snd (my_agent runtime_ok {| ctx_room_name := "call-42"; ctx_proc_userdata := ∅ |} [])
    = [OpSetLogContext "call-42"] ∧
  fst (my_agent runtime_ok {| ctx_room_name := "call-42"; ctx_proc_userdata := ∅ |} [])
    = first_failure [stt_fail runtime_ok; llm_fail runtime_ok; tts_fail runtime_ok;
                     Some (KeyError "vad")].
Proof.
  apply (my_agent_without_prewarm runtime_ok {| ctx_room_name := "call-42"; ctx_proc_userdata := ∅ |}).
  vm_compute. reflexivity.
Defined.

Lemma book_room_calls_need_credentials_witness :
  ∃ (s : string) (j : Json) (creds : Creds),
    w_env (world_with_env (env_with_creds sample_key_text)) !! CREDS_VAR = Some s ∧ s ≠ "" ∧
    json_loads sample_services s = Ok j ∧
    from_service_account_info sample_services j scopes = Ok creds.
Proof.
  apply (book_room_calls_need_credentials sample_services "Rahul Sharma" "9999999999" "12 March"
           "14 March" 2 (world_with_env (env_with_creds sample_key_text))).
  vm_compute. discriminate.
Defined.
